(** * sentiments-stocks: the news ingestion routine of [notebooks/data_ingestion.ipynb]

    The notebook reads one secret from the process environment, builds a
    time-windowed query, sends it with [requests.get] and returns the
    ["articles"] entry of the decoded answer.  This file embeds that routine
    as a function in a small state-and-exception monad whose state is the
    trace of the effects performed (clock reads, outbound calls, lines
    printed), and proves what the routine does on every path. *)

From Stdlib Require Import ZArith List String Ascii Bool Lia.
From Stdlib Require Import DecimalString.
Import ListNotations.

Set Warnings "-register-all".

Local Open Scope string_scope.
Local Open Scope Z_scope.

(** ** Python values

    The objects the routine handles: what [json()] builds from a body and what
    goes into the [params] dictionary.  A [dict] keeps its insertion order, so
    it is an association list; a float is carried by its literal only. *)

Inductive value : Type :=
| VNone : value
| VBool (b : bool) : value
| VInt (n : Z) : value
| VFloat (literal : string) : value
| VStr (s : string) : value
| VList (items : list value) : value
| VDict (entries : list (string * value)) : value.

Fixpoint lookup {A : Type} (k : string) (d : list (string * A)) : option A :=
  match d with
  | [] => None
  | (k', v) :: rest => if String.eqb k k' then Some v else lookup k rest
  end.


(** ** Responses, exceptions, results *)

Record Response : Type := mkResponse {
  status_code : Z;
  text : string
}.

(** What [requests.get] raises when no response is obtained. *)
Inductive transport_failure : Type :=
| ConnectionError
| Timeout
| TooManyRedirects.

(** The exceptions of the paths followed here.  [RequestException] stands
    for what [requests.get] itself raises when it gets no response; the
    library derives [HTTPError] and [JSONDecodeError] from the same class,
    and they are kept apart here by where they are raised.  What else the
    decoder may raise on a body (a [ValueError] on an oversized number, a
    [RecursionError] on deep nesting) is not told apart from its
    [JSONDecodeError]. *)
Inductive exception : Type :=
| OverflowError
| RequestException (why : transport_failure)
| HTTPError (response : Response)
| JSONDecodeError
| KeyError (key : string)
| TypeError.

Inductive result (A : Type) : Type :=
| Return (a : A)
| Raise (e : exception).

Arguments Return {A} a.
Arguments Raise {A} e.

(** ** Dates and times

    A naive [datetime] is the number of microseconds elapsed since the start
    of proleptic ordinal day 0, so that its day number is the ordinal of
    [toordinal()] (1 on 0001-01-01, [MAXORDINAL] on 9999-12-31).  A
    [timedelta] is a signed number of microseconds. *)

Definition US_PER_SECOND : Z := 1000000.
Definition US_PER_HOUR : Z := 3600 * US_PER_SECOND.
Definition US_PER_DAY : Z := 24 * US_PER_HOUR.
Definition MAXORDINAL : Z := 3652059.
Definition MAX_DELTA_DAYS : Z := 999999999.

Definition datetime := Z.

Definition toordinal (t : datetime) : Z := t / US_PER_DAY.

Definition valid_datetime (t : datetime) : bool :=
  (0 <? toordinal t) && (toordinal t <=? MAXORDINAL).

(** A Python number: an [int], or a finite [float] given by its integer
    mantissa and binary exponent, [NFloat m e] being [m * 2^e] (0.5 is
    [NFloat 1 (-1)]).  An [int] is used where a number is expected. *)
Inductive number : Type :=
| NInt (n : Z)
| NFloat (m e : Z).

Coercion NInt : Z >-> number.

(** [n / d] rounded to the nearest integer, ties to the even one ([d > 0]). *)
Definition round_half_even (n d : Z) : Z :=
  let q := n / d in
  let r := n mod d in
  if 2 * r <? d then q
  else if d <? 2 * r then q + 1
  else if Z.even q then q else q + 1.

(** The nearest double to the integer [p], as an integer: [p] is kept when
    it fits in 53 bits and is rounded to 53 significant bits otherwise. *)
Definition round_to_double (p : Z) : Z :=
  let bits := Z.log2 (Z.abs p) + 1 in
  if bits <=? 53 then p
  else let s := bits - 53 in round_half_even p (2 ^ s) * 2 ^ s.

(** The microseconds of [timedelta(hours=x)].  For a float the whole hours
    are converted exactly, the fractional hours are multiplied by the
    microseconds of an hour in double arithmetic, and the sum is rounded to
    the nearest microsecond, ties to even. *)
Definition hours_to_us (hours : number) : Z :=
  match hours with
  | NInt n => n * US_PER_HOUR
  | NFloat m e =>
      if 0 <=? e then m * 2 ^ e * US_PER_HOUR
      else
        let d := 2 ^ (- e) in
        let whole := Z.quot m d in
        let frac := Z.rem m d in
        round_half_even
          (whole * US_PER_HOUR * d + round_to_double (US_PER_HOUR * frac)) d
  end.

(** [timedelta(hours=h)]. *)
Definition timedelta (hours : number) : result Z :=
  let us := hours_to_us hours in
  if Z.abs (us / US_PER_DAY) <=? MAX_DELTA_DAYS then Return us
  else Raise OverflowError.

(** [t - delta] on a datetime: the result must be a date of years 1..9999. *)
Definition datetime_sub (t : datetime) (delta : Z) : result datetime :=
  let r := t - delta in
  if valid_datetime r then Return r else Raise OverflowError.

(** [_ord2ymd]: ordinal to (year, month, day). *)
Definition DI400Y : Z := 146097.
Definition DI100Y : Z := 36524.
Definition DI4Y : Z := 1461.

Definition DAYS_IN_MONTH (m : Z) : Z :=
  nth (Z.to_nat m) [0; 31; 28; 31; 30; 31; 30; 31; 31; 30; 31; 30; 31] 0.

Definition DAYS_BEFORE_MONTH (m : Z) : Z :=
  nth (Z.to_nat m) [0; 0; 31; 59; 90; 120; 151; 181; 212; 243; 273; 304; 334] 0.

Definition b2z (b : bool) : Z := if b then 1 else 0.

Definition ord2ymd (ordinal : Z) : Z * Z * Z :=
  let n := ordinal - 1 in
  let n400 := n / DI400Y in
  let n := n mod DI400Y in
  let year := n400 * 400 + 1 in
  let n100 := n / DI100Y in
  let n := n mod DI100Y in
  let n4 := n / DI4Y in
  let n := n mod DI4Y in
  let n1 := n / 365 in
  let n := n mod 365 in
  let year := year + n100 * 100 + n4 * 4 + n1 in
  if (n1 =? 4) || (n100 =? 4) then (year - 1, 12, 31)
  else
    let leapyear := (n1 =? 3) && (negb (n4 =? 24) || (n100 =? 3)) in
    let month := Z.shiftr (n + 50) 5 in
    let preceding := DAYS_BEFORE_MONTH month + b2z ((2 <? month) && leapyear) in
    if n <? preceding then
      let month := month - 1 in
      let preceding :=
        preceding - (DAYS_IN_MONTH month + b2z ((month =? 2) && leapyear)) in
      (year, month, n - preceding + 1)
    else (year, month, n - preceding + 1).

(** ["%0wd"] for a value of at most [w] digits. *)
Definition digit (n : Z) : ascii := ascii_of_nat (48 + Z.to_nat (n mod 10)).

Fixpoint zpad (w : nat) (n : Z) : string :=
  match w with
  | O => EmptyString
  | S w' => zpad w' (n / 10) ++ String (digit n) EmptyString
  end.

(** [datetime.isoformat()] with the default separator and [timespec='auto'];
    the datetime is naive, so no offset is appended. *)
Definition isoformat (t : datetime) : string :=
  let '(y, m, d) := ord2ymd (toordinal t) in
  let us_of_day := t mod US_PER_DAY in
  let us := us_of_day mod US_PER_SECOND in
  let secs := us_of_day / US_PER_SECOND in
  let hh := secs / 3600 in
  let mm := (secs mod 3600) / 60 in
  let ss := secs mod 60 in
  zpad 4 y ++ "-" ++ zpad 2 m ++ "-" ++ zpad 2 d ++ "T"
    ++ zpad 2 hh ++ ":" ++ zpad 2 mm ++ ":" ++ zpad 2 ss
    ++ (if us =? 0 then EmptyString else "." ++ zpad 6 us).

(** [datetime(y, m, d, hh, mm, ss, us)] through [_ymd2ord], for building
    clock readings. *)
Definition is_leap (y : Z) : bool :=
  (y mod 4 =? 0) && (negb (y mod 100 =? 0) || (y mod 400 =? 0)).

Definition days_before_year (year : Z) : Z :=
  let y := year - 1 in y * 365 + y / 4 - y / 100 + y / 400.

Definition ymd2ord (y m d : Z) : Z :=
  days_before_year y + (DAYS_BEFORE_MONTH m + b2z ((2 <? m) && is_leap y)) + d.

Definition mk_datetime (y m d hh mm ss us : Z) : datetime :=
  ymd2ord y m d * US_PER_DAY + ((hh * 60 + mm) * 60 + ss) * US_PER_SECOND + us.

(** ** The world and the effects

    Everything outside the routine: the process environment after
    [load_dotenv()], the wall clock (the value of the k-th read), the upstream
    service as seen through [requests.get] (the outcome of the k-th outbound
    call) and the JSON decoder behind [Response.json()].  [requests.get]
    follows redirects: [redirects] is how many it followed during the k-th
    call before it got its outcome, each of them one more HTTP request on
    the wire. *)

Record Request : Type := mkRequest {
  url : string;
  params : list (string * value)
}.

Record World : Type := mkWorld {
  environ : string -> option string;
  clock : nat -> datetime;
  upstream : nat -> Request -> Response + transport_failure;
  redirects : nat -> Request -> nat;
  loads : string -> option value
}.

(** [HttpGet req] is one invocation of [requests.get], not one HTTP
    request: see [http_requests] for what goes on the wire. *)
Inductive event : Type :=
| Now (t : datetime)
| HttpGet (req : Request)
| Print (v : value).

Definition trace := list event.

Definition is_now (e : event) : bool :=
  match e with Now _ => true | _ => false end.
Definition is_get (e : event) : bool :=
  match e with HttpGet _ => true | _ => false end.
Definition is_print (e : event) : bool :=
  match e with Print _ => true | _ => false end.

Definition clock_reads (tr : trace) : nat := List.length (filter is_now tr).
Definition calls (tr : trace) : list event := filter is_get tr.
Definition stdout (tr : trace) : list event := filter is_print tr.

(** The monad: a computation extends the trace and returns or raises. *)
Definition M (A : Type) : Type := trace -> result A * trace.

Definition ret {A : Type} (a : A) : M A := fun tr => (Return a, tr).

Definition raise {A : Type} (e : exception) : M A := fun tr => (Raise e, tr).

Definition bind {A B : Type} (m : M A) (k : A -> M B) : M B :=
  fun tr =>
    match m tr with
    | (Return a, tr') => k a tr'
    | (Raise e, tr') => (Raise e, tr')
    end.

Definition lift {A : Type} (r : result A) : M A := fun tr => (r, tr).

Notation "x <- m ;; k" := (bind m (fun x => k))
  (at level 61, m at next level, right associativity).
Notation "m ;;; k" := (bind m (fun _ => k))
  (at level 61, right associativity).

(** [os.getenv]. *)
Definition os_getenv (w : World) (name : string) : option string :=
  environ w name.

(** [datetime.now()]. *)
Definition datetime_now (w : World) : M datetime :=
  fun tr => let t := clock w (clock_reads tr) in (Return t, (tr ++ [Now t])%list).

(** [requests.get(url, params=params)]: one invocation, answered by a
    response or by a transport failure, after the redirects it followed. *)
Definition requests_get (w : World) (u : string) (ps : list (string * value))
  : M Response :=
  fun tr =>
    let req := mkRequest u ps in
    match upstream w (List.length (calls tr)) req with
    | inl r => (Return r, (tr ++ [HttpGet req])%list)
    | inr f => (Raise (RequestException f), (tr ++ [HttpGet req])%list)
    end.

(** [Response.raise_for_status()]: raises on 4xx and 5xx only. *)
Definition is_error_status (code : Z) : bool :=
  (400 <=? code) && (code <? 600).

Definition raise_for_status (r : Response) : result unit :=
  if is_error_status (status_code r) then Raise (HTTPError r) else Return tt.

(** [Response.json()]. *)
Definition json (w : World) (r : Response) : result value :=
  match loads w (text r) with
  | Some v => Return v
  | None => Raise JSONDecodeError
  end.

(** [print(v)]. *)
Definition print (v : value) : M unit :=
  fun tr => (Return tt, (tr ++ [Print v])%list).

(** [v[k]] for a string [k]: only a [dict] can be indexed by a string. *)
Definition getitem (v : value) (k : string) : result value :=
  match v with
  | VDict entries =>
      match lookup k entries with
      | Some x => Return x
      | None => Raise (KeyError k)
      end
  | _ => Raise TypeError
  end.

(** ** The notebook *)

(** Cell 2: [NEWS_API_KEY = os.getenv('NEWS_API_KEY')]. *)
Definition NEWS_API_KEY (w : World) : option string :=
  os_getenv w "NEWS_API_KEY".

Definition of_optional (o : option string) : value :=
  match o with
  | Some s => VStr s
  | None => VNone
  end.

Definition ENDPOINT : string := "https://newsapi.org/v2/everything".

(** Cell 3: [fetch_stock_news]. *)
Definition fetch_stock_news (w : World)
    (ticker : string) (hours_back : number) (page page_size : Z) : M value :=
  now <- datetime_now w ;;
  delta <- lift (timedelta hours_back) ;;
  from <- lift (datetime_sub now delta) ;;
  let params :=
    [ ("q", VStr ticker);
      ("from", VStr (isoformat from));
      ("to", VStr (isoformat now));
      ("language", VStr "en");
      ("sortBy", VStr "relevancy");
      ("page", VInt page);
      ("pageSize", VInt page_size);
      ("apiKey", of_optional (NEWS_API_KEY w)) ] in
  resp <- requests_get w ENDPOINT params ;;
  lift (raise_for_status resp) ;;;
  body <- lift (json w resp) ;;
  print body ;;;
  body <- lift (json w resp) ;;
  lift (getitem body "articles").

(** The signature's defaults: [hours_back=1, page=1, page_size=50]. *)
Definition fetch_stock_news_call (w : World) (ticker : string)
    (hours_back : option number) (page page_size : option Z) : M value :=
  fetch_stock_news w ticker
    (match hours_back with Some h => h | None => NInt 1 end)
    (match page with Some p => p | None => 1 end)
    (match page_size with Some s => s | None => 50 end).

(** ** The captured run

    Cell 4 calls [fetch_stock_news("TSLA", hours_back, page=1, page_size=5)]
    with [hours_back = 24]; its stored output starts with the decoded body
    that the routine printed.  The body is transcribed here as it is. *)

Definition DQ : string := String (ascii_of_nat 34) EmptyString.
Definition CR : string := String (ascii_of_nat 13) EmptyString.
Definition LF : string := String (ascii_of_nat 10) EmptyString.

Definition sample_article_1 : value :=
  VDict
    [ ("source",
        VDict
          [ ("id", VNone);
            ("name", VStr "Quartz India") ]);
      ("author", VStr "Kevin Williams");
      ("title",
        VStr "Tesla rival Xiaomi shows off its new SUV in Beijing");
      ("description",
        VStr ("Elon Musk’s beleaguered Tesla (TSLA) is fending off yet anot"
              ++ "her competitive EV entry in China.Read more..."));
      ("url",
        VStr "https://qz.com/telsa-xiaomi-ev-suv-yu7-1851782952");
      ("urlToImage",
        VStr ("https://i.kinja-img.com/image/upload/c_fill,h_675,pg_1,q_80,"
              ++ "w_1200/8c7c3f41dbe47e8693d07378a537891d.jpg"));
      ("publishedAt", VStr "2025-05-29T17:31:15Z");
      ("content",
        VStr ("In This Story"
              ++ CR
              ++ LF
              ++ "Elon Musks beleaguered Tesla (TSLA) is fending off yet anoth"
              ++ "er competitive EV entry in China."
              ++ CR
              ++ LF
              ++ " Chinese electronics giant Xiaomi launched the YU7 SUV at 13"
              ++ " of its Beijing showrooms thi… [+1744 chars]")) ].

Definition sample_article_2 : value :=
  VDict
    [ ("source",
        VDict
          [ ("id", VNone);
            ("name", VStr "Yahoo Entertainment") ]);
      ("author", VStr "Ali Ahmed");
      ("title",
        VStr "TD Cowen Maintains Buy Rating on Tesla (TSLA)");
      ("description",
        VStr ("On Tuesday, May 27, TD Cowen analysts maintained a “Buy” rat"
              ++ "ing with a price target of $330 for Tesla, Inc. (NASDAQ:TSLA"
              ++ "). The analysts highlighted the..."));
      ("url",
        VStr ("https://finance.yahoo.com/news/td-cowen-maintains-buy-rating"
              ++ "-172221555.html"));
      ("urlToImage",
        VStr ("https://s.yimg.com/ny/api/res/1.2/yW5JtOY4YQMatL7TyPD6iw--/Y"
              ++ "XBwaWQ9aGlnaGxhbmRlcjt3PTEyMDA7aD0xMjAw/https://media.zenfs."
              ++ "com/en/insidermonkey.com/d60200c9c3fe46563f2c514bb66853e7"));
      ("publishedAt", VStr "2025-05-29T17:22:21Z");
      ("content",
        VStr ("On Tuesday, May 27, TD Cowen analysts maintained a Buy ratin"
              ++ "g with a price target of $330 for Tesla, Inc. (NASDAQ:TSLA)."
              ++ " The analysts highlighted the companys autonomous vehicle (A"
              ++ "V) features, which … [+1276 chars]")) ].

Definition sample_article_3 : value :=
  VDict
    [ ("source",
        VDict
          [ ("id", VNone);
            ("name", VStr "Biztoc.com") ]);
      ("author", VStr "finance.yahoo.com");
      ("title",
        VStr "TD Cowen Maintains Buy Rating on Tesla (TSLA)");
      ("description",
        VStr ("In This Article:"
              ++ LF
              ++ "On Tuesday, May 27, TD Cowen analysts maintained a “Buy” rat"
              ++ "ing with a price target of $330 for Tesla, Inc. (NASDAQ:TSLA"
              ++ "). The analysts highlighted the company’s autonomous vehicle"
              ++ " (AV) features, which coincide with TD Cowen’s thesis regard"
              ++ "in…"));
      ("url", VStr "https://biztoc.com/x/54c357edbe3ddf04");
      ("urlToImage",
        VStr "https://biztoc.com/cdn/54c357edbe3ddf04_s.webp");
      ("publishedAt", VStr "2025-05-29T17:31:15Z");
      ("content",
        VStr ("In This Article:On Tuesday, May 27, TD Cowen analysts mainta"
              ++ "ined a Buy rating with a price target of $330 for Tesla, Inc"
              ++ ". (NASDAQ:TSLA). The analysts highlighted the companys auton"
              ++ "omous vehicle (AV) … [+140 chars]")) ].

Definition sample_article_4 : value :=
  VDict
    [ ("source",
        VDict
          [ ("id", VNone);
            ("name", VStr "Biztoc.com") ]);
      ("author", VStr "teslarati.com");
      ("title",
        VStr ("Tesla analyst’s firm has sold its entire TSLA position: Here"
              ++ "’s why"));
      ("description",
        VStr ("Tesla analyst Gary Black of The Future Fund revealed today t"
              ++ "hat his firm has sold its entire $TSLA holding, marking the "
              ++ "first time since 2021 that it has not had a position in the "
              ++ "company’s stock."
              ++ LF
              ++ "Black has been a skeptic of the company and relatively pessi"
              ++ "mi…"));
      ("url", VStr "https://biztoc.com/x/a6a6563384a07189");
      ("urlToImage",
        VStr "https://biztoc.com/cdn/a6a6563384a07189_s.webp");
      ("publishedAt", VStr "2025-05-29T15:38:56Z");
      ("content",
        VStr ("Tesla analyst Gary Black of The Future Fund revealed today t"
              ++ "hat his firm has sold its entire $TSLA holding, marking the "
              ++ "first time since 2021 that it has not had a position in the "
              ++ "companys stock.Blac… [+150 chars]")) ].

Definition sample_article_5 : value :=
  VDict
    [ ("source",
        VDict
          [ ("id", VNone);
            ("name", VStr "Biztoc.com") ]);
      ("author", VStr "investopedia.com");
      ("title",
        VStr "5 Things to Know Before the Stock Market Opens");
      ("description",
        VStr ("U.S. stock futures are pointing sharply higher after a feder"
              ++ "al court struck down President Donald Trump's "
              ++ DQ
              ++ "reciprocal"
              ++ DQ
              ++ " tariffs; Nvidia (NVDA) shares are jumping in premarket trad"
              ++ "ing after the chipmaker posted record revenue that tops anal"
              ++ "ysts' estimates; Tesl…"));
      ("url", VStr "https://biztoc.com/x/556475519d87d05d");
      ("urlToImage",
        VStr "https://biztoc.com/cdn/556475519d87d05d_s.webp");
      ("publishedAt", VStr "2025-05-29T19:00:05Z");
      ("content",
        VStr ("U.S. stock futures are pointing sharply higher after a feder"
              ++ "al court struck down President Donald Trump's "
              ++ DQ
              ++ "reciprocal"
              ++ DQ
              ++ " tariffs; Nvidia (NVDA) shares are jumping in premarket trad"
              ++ "ing after the chipmak… [+156 chars]")) ].

Definition sample_body : value :=
  VDict
    [ ("status", VStr "ok");
      ("totalResults", VInt 5);
      ("articles",
       VList [ sample_article_1;
               sample_article_2;
               sample_article_3;
               sample_article_4;
               sample_article_5 ]) ].

(** ** Vocabulary for the statements *)

(** The lookback instant [now - timedelta(hours=hours_back)]. *)
Definition window (now : datetime) (hours_back : number)
  : result datetime :=
  match timedelta hours_back with
  | Return delta => datetime_sub now delta
  | Raise e => Raise e
  end.

(** What [datetime.now()] returns when called after the events of [tr]. *)
Definition reading (w : World) (tr : trace) : datetime :=
  clock w (clock_reads tr).

(** The call the routine makes once the window is known. *)
Definition sent_request (w : World) (ticker : string) (from now : datetime)
    (page page_size : Z) : Request :=
  mkRequest "https://newsapi.org/v2/everything"
    [ ("q", VStr ticker);
      ("from", VStr (isoformat from));
      ("to", VStr (isoformat now));
      ("language", VStr "en");
      ("sortBy", VStr "relevancy");
      ("page", VInt page);
      ("pageSize", VInt page_size);
      ("apiKey", of_optional (os_getenv w "NEWS_API_KEY")) ].




(** The shapes a run can have: it reads the clock once; then it either stops
    on the window, or makes its call and stops on the answer, or prints the
    decoded body and indexes it. *)
Inductive fetch_run (w : World) (ticker : string) (hours_back : number)
    (page page_size : Z) (tr : trace) : result value -> list event -> Prop :=
| run_overflow :
    forall e,
      window (reading w tr) hours_back = Raise e ->
      fetch_run w ticker hours_back page page_size tr
        (Raise OverflowError) [Now (reading w tr)]
| run_failed :
    forall from e,
      window (reading w tr) hours_back = Return from ->
      fetch_run w ticker hours_back page page_size tr
        (Raise e)
        [Now (reading w tr);
         HttpGet (sent_request w ticker from (reading w tr) page page_size)]
| run_decoded :
    forall from r body,
      window (reading w tr) hours_back = Return from ->
      upstream w (List.length (calls tr))
        (sent_request w ticker from (reading w tr) page page_size) = inl r ->
      loads w (text r) = Some body ->
      fetch_run w ticker hours_back page page_size tr
        (getitem body "articles")
        [Now (reading w tr);
         HttpGet (sent_request w ticker from (reading w tr) page page_size);
         Print body].

(** ** Test doubles

    [stub_world key t answer decoded] is a world in which the environment
    holds [NEWS_API_KEY] when [key] is given, the clock always shows [t], the
    upstream gives [answer] to every call and the decoder yields [decoded]. *)

Definition stub_world (key : option string) (t : datetime)
    (answer : Response + transport_failure) (decoded : option value) : World :=
  mkWorld
    (fun name => if String.eqb name "NEWS_API_KEY" then key else None)
    (fun _ => t)
    (fun _ _ => answer)
    (fun _ _ => O)
    (fun _ => decoded).

Definition captured_at : datetime := mk_datetime 2025 5 29 21 0 0 0.

(** The floats 0.5 and 1e-10. *)
Definition half_an_hour : number := NFloat 1 (-1).

Definition tenth_of_a_nanohour : number := NFloat 7737125245533627 (-86).

Definition day_before : datetime := mk_datetime 2025 5 28 21 0 0 0.

Definition captured_response : Response := mkResponse 200 "(captured body)".

Definition captured_world : World :=
  stub_world (Some "k3y") captured_at (inl captured_response)
    (Some sample_body).















(** ** The rest of the notebook: cell 4

    The cell calls the routine for ["TSLA"] over 24 hours, prints how many
    records came back and then four lines per record.  [len], iteration and
    the text an f-string puts in place of a value are those of Python on
    the values above; a [str] is held as its UTF-8 bytes, so its characters
    are the groups made of a leading byte and its continuation bytes. *)

Definition is_continuation (c : ascii) : bool :=
  (128 <=? nat_of_ascii c)%nat && (nat_of_ascii c <? 192)%nat.

Definition starts_with_continuation (s : string) : bool :=
  match s with
  | EmptyString => false
  | String c _ => is_continuation c
  end.

Fixpoint chars (s : string) : list string :=
  match s with
  | EmptyString => []
  | String c rest =>
      if starts_with_continuation rest then
        match chars rest with
        | first :: others => String c first :: others
        | [] => [String c EmptyString]
        end
      else String c EmptyString :: chars rest
  end.

(** [len(v)]. *)
Definition len (v : value) : result Z :=
  match v with
  | VList items => Return (Z.of_nat (List.length items))
  | VDict entries => Return (Z.of_nat (List.length entries))
  | VStr s => Return (Z.of_nat (List.length (chars s)))
  | _ => Raise TypeError
  end.

(** What [for x in v] goes through: the items of a list, the keys of a
    dict, the characters of a string. *)
Definition iter (v : value) : result (list value) :=
  match v with
  | VList items => Return items
  | VDict entries => Return (map (fun kv => VStr (fst kv)) entries)
  | VStr s => Return (map VStr (chars s))
  | _ => Raise TypeError
  end.

(** [str(n)] for an [int]. *)
Definition str_int (n : Z) : string := NilZero.string_of_int (Z.to_int n).

(** The text of [{v}] in an f-string, that is [str(v)].  The text of a
    float, a list or a dict is left to [other]. *)
Definition py_str (other : value -> string) (v : value) : string :=
  match v with
  | VNone => "None"
  | VBool true => "True"
  | VBool false => "False"
  | VInt n => str_int n
  | VStr s => s
  | _ => other v
  end.

(** [for x in items: body(x)]. *)
Fixpoint for_each {A : Type} (items : list A) (body : A -> M unit) : M unit :=
  match items with
  | [] => ret tt
  | x :: rest => body x ;;; for_each rest body
  end.

(** The body of the loop of cell 4. *)
Definition print_article (other : value -> string) (article : value)
  : M unit :=
  title <- lift (getitem article "title") ;;
  print (VStr ("Title: " ++ py_str other title)) ;;;
  source <- lift (getitem article "source") ;;
  name <- lift (getitem source "name") ;;
  print (VStr ("Source: " ++ py_str other name)) ;;;
  published <- lift (getitem article "publishedAt") ;;
  print (VStr ("Published At: " ++ py_str other published)) ;;;
  link <- lift (getitem article "url") ;;
  print (VStr ("URL: " ++ py_str other link ++ LF)).

(** Cell 4. *)
Definition cell_4 (other : value -> string) (w : World) : M unit :=
  let hours_back := 24 in
  articles <- fetch_stock_news w "TSLA" hours_back 1 5 ;;
  count <- lift (len articles) ;;
  print (VStr ("Fetched " ++ str_int count
               ++ " APPL-related articles in last " ++ str_int hours_back
               ++ "h.")) ;;;
  items <- lift (iter articles) ;;
  for_each items (print_article other).

(** *** Vocabulary for cell 4 *)

(** The first line the cell prints for [count] records. *)
Definition summary_line (count : Z) : event :=
  Print (VStr ("Fetched " ++ str_int count
               ++ " APPL-related articles in last 24h.")).

(** The four fields a record is asked for, in the order of the loop body. *)
Definition article_fields (article : value)
  : result (value * value * value * value) :=
  match getitem article "title" with
  | Raise e => Raise e
  | Return title =>
      match getitem article "source" with
      | Raise e => Raise e
      | Return source =>
          match getitem source "name" with
          | Raise e => Raise e
          | Return name =>
              match getitem article "publishedAt" with
              | Raise e => Raise e
              | Return published =>
                  match getitem article "url" with
                  | Raise e => Raise e
                  | Return link => Return (title, name, published, link)
                  end
              end
          end
      end
  end.

Definition has_fields (article : value) : Prop :=
  exists fields, article_fields article = Return fields.

(** The four lines printed for a record that has its fields. *)
Definition article_lines (other : value -> string) (article : value)
  : list event :=
  match article_fields article with
  | Return (title, name, published, link) =>
      [ Print (VStr ("Title: " ++ py_str other title));
        Print (VStr ("Source: " ++ py_str other name));
        Print (VStr ("Published At: " ++ py_str other published));
        Print (VStr ("URL: " ++ py_str other link ++ LF)) ]
  | Raise _ => []
  end.

(** What [print(v)] writes, and the text a run leaves on standard output. *)
Definition written (other : value -> string) (e : event) : string :=
  match e with
  | Print v => py_str other v ++ LF
  | _ => EmptyString
  end.

Definition stream (other : value -> string) (tr : trace) : string :=
  String.concat EmptyString (map (written other) (stdout tr)).

(** The output stored with cell 4, after the body printed by the routine. *)
Definition stored_output : string :=
  String.concat EmptyString
    [ "Fetched 5 APPL-related articles in last 24h." ++ LF;
      "Title: Tesla rival Xiaomi shows off its new SUV in Beijing" ++ LF;
      "Source: Quartz India" ++ LF;
      "Published At: 2025-05-29T17:31:15Z" ++ LF;
      "URL: https://qz.com/telsa-xiaomi-ev-suv-yu7-1851782952" ++ LF;
      LF;
      "Title: TD Cowen Maintains Buy Rating on Tesla (TSLA)" ++ LF;
      "Source: Yahoo Entertainment" ++ LF;
      "Published At: 2025-05-29T17:22:21Z" ++ LF;
      "URL: https://finance.yahoo.com/news/td-cowen-maintains-buy-rating-172221555.html" ++ LF;
      LF;
      "Title: TD Cowen Maintains Buy Rating on Tesla (TSLA)" ++ LF;
      "Source: Biztoc.com" ++ LF;
      "Published At: 2025-05-29T17:31:15Z" ++ LF;
      "URL: https://biztoc.com/x/54c357edbe3ddf04" ++ LF;
      LF;
      "Title: Tesla analyst’s firm has sold its entire TSLA position: Here’s why" ++ LF;
      "Source: Biztoc.com" ++ LF;
      "Published At: 2025-05-29T15:38:56Z" ++ LF;
      "URL: https://biztoc.com/x/a6a6563384a07189" ++ LF;
      LF;
      "Title: 5 Things to Know Before the Stock Market Opens" ++ LF;
      "Source: Biztoc.com" ++ LF;
      "Published At: 2025-05-29T19:00:05Z" ++ LF;
      "URL: https://biztoc.com/x/556475519d87d05d" ++ LF;
      LF ].

(** A stand-in for the text of floats, lists and dicts. *)
Definition no_text (v : value) : string := EmptyString.

Definition untitled_article : value :=
  VDict [ ("source", VDict [("id", VNone); ("name", VStr "Biztoc.com")]);
          ("publishedAt", VStr "2025-05-29T19:00:05Z");
          ("url", VStr "https://biztoc.com/x/556475519d87d05d") ].

Definition unlinked_article : value :=
  VDict [ ("source", VDict [("id", VNone); ("name", VStr "Biztoc.com")]);
          ("title", VNone);
          ("publishedAt", VStr "2025-05-29T19:00:05Z") ].

Definition unlinked_world : World :=
  stub_world (Some "k3y") captured_at (inl captured_response)
    (Some (VDict [ ("status", VStr "ok"); ("totalResults", VInt 3);
                   ("articles",
                    VList [sample_article_1; unlinked_article;
                           sample_article_3]) ])).

Definition null_articles_world : World :=
  stub_world (Some "k3y") captured_at (inl captured_response)
    (Some (VDict [("status", VStr "ok"); ("articles", VNone)])).



(** ** The date arithmetic on known instants *)

Example isoformat_sample :
  isoformat (mk_datetime 2025 5 29 17 31 15 0) = "2025-05-29T17:31:15".
Proof. reflexivity. Qed.

Example isoformat_micro :
  isoformat (mk_datetime 2024 2 29 23 59 59 123) = "2024-02-29T23:59:59.000123".
Proof. reflexivity. Qed.

Example isoformat_min :
  isoformat (mk_datetime 1 1 1 0 0 0 0) = "0001-01-01T00:00:00".
Proof. reflexivity. Qed.

Example isoformat_max :
  isoformat (mk_datetime 9999 12 31 23 59 59 999999)
    = "9999-12-31T23:59:59.999999".
Proof. reflexivity. Qed.

Example window_day_before : window captured_at 24 = Return day_before.
Proof. reflexivity. Qed.

Example window_before_year_one :
  window captured_at 100000000 = Raise OverflowError.
Proof. reflexivity. Qed.

Example timedelta_too_large : timedelta 1000000000000 = Raise OverflowError.
Proof. reflexivity. Qed.

Example timedelta_half_an_hour : timedelta half_an_hour = Return 1800000000.
Proof. reflexivity. Qed.

Example timedelta_a_tenth :
  timedelta (NFloat 3602879701896397 (-55)) = Return 360000000.
Proof. reflexivity. Qed.

Example timedelta_minus_a_third :
  timedelta (NFloat (-6004799503160661) (-54)) = Return (-1200000000).
Proof. reflexivity. Qed.

Example timedelta_rounds_to_nothing :
  timedelta tenth_of_a_nanohour = Return 0.
Proof. reflexivity. Qed.

Example timedelta_float_of_int :
  timedelta (NFloat 3 3) = timedelta 24.
Proof. reflexivity. Qed.

(** ** The monad *)

Lemma bind_ret {A B : Type} (a : A) (k : A -> M B) (tr : trace) :
  bind (ret a) k tr = k a tr.
Proof. reflexivity. Qed.

Lemma bind_raise {A B : Type} (e : exception) (k : A -> M B) (tr : trace) :
  bind (raise e) k tr = (Raise e, tr).
Proof. reflexivity. Qed.

Lemma bind_assoc {A B C : Type} (m : M A) (k : A -> M B) (k' : B -> M C)
    (tr : trace) :
  bind (bind m k) k' tr = bind m (fun a => bind (k a) k') tr.
Proof.
  unfold bind. destruct (m tr) as [[a|e] tr']; reflexivity.
Qed.

Lemma lift_Return {A : Type} (a : A) : lift (Return a) = ret a.
Proof. reflexivity. Qed.

Lemma lift_Raise {A : Type} (e : exception) : lift (@Raise A e) = raise e.
Proof. reflexivity. Qed.

(** ** Paths of [fetch_stock_news]

    The routine has five ways to end.  Each lemma below gives the result and
    the whole trace on one of them. *)

Lemma calls_app (tr1 tr2 : trace) :
  calls (tr1 ++ tr2)%list = (calls tr1 ++ calls tr2)%list.
Proof. apply filter_app. Qed.

Lemma clock_reads_app (tr1 tr2 : trace) :
  clock_reads (tr1 ++ tr2)%list = (clock_reads tr1 + clock_reads tr2)%nat.
Proof. unfold clock_reads. rewrite filter_app. apply length_app. Qed.

Lemma stdout_app (tr1 tr2 : trace) :
  stdout (tr1 ++ tr2)%list = (stdout tr1 ++ stdout tr2)%list.
Proof. apply filter_app. Qed.

Lemma window_raises_overflow (now : datetime) (h : number)
    (e : exception) :
  window now h = Raise e -> e = OverflowError.
Proof.
  unfold window, timedelta, datetime_sub.
  destruct (Z.abs _ <=? _); [destruct (valid_datetime _)|]; congruence.
Qed.

Lemma window_value (now : datetime) (h : Z) (from : datetime) :
  window now h = Return from -> from = now - h * US_PER_HOUR.
Proof.
  unfold window, timedelta, datetime_sub. cbn [hours_to_us].
  destruct (Z.abs _ <=? _); [destruct (valid_datetime _)|]; congruence.
Qed.

Section Paths.

Variable w : World.
Variables (ticker : string) (hours_back : number) (page page_size : Z).
Variable tr : trace.

Ltac step_window H :=
  unfold fetch_stock_news, bind, datetime_now, lift;
  unfold reading in *;
  unfold window in H;
  destruct (timedelta hours_back) as [delta|e0]; [|try discriminate H];
  try rewrite H.

Lemma fetch_overflow (e : exception) :
  window (reading w tr) hours_back = Raise e ->
  fetch_stock_news w ticker hours_back page page_size tr
    = (Raise OverflowError, (tr ++ [Now (reading w tr)])%list).
Proof.
  intros H. pose proof (window_raises_overflow _ _ _ H) as ->.
  step_window H; [reflexivity|].
  injection H as ->. reflexivity.
Qed.

Section Sent.

Variable from : datetime.
Hypothesis Hwin : window (reading w tr) hours_back = Return from.

Ltac step_get H :=
  pose proof Hwin as Hw; step_window Hw;
  unfold requests_get; rewrite calls_app; simpl (calls [Now _]);
  rewrite app_nil_r;
  change (mkRequest ENDPOINT _)
    with (sent_request w ticker from (clock w (clock_reads tr))
            page page_size);
  rewrite H; rewrite <- app_assoc; simpl app.

Lemma fetch_transport_failure (f : transport_failure) :
  upstream w (List.length (calls tr))
    (sent_request w ticker from (reading w tr) page page_size) = inr f ->
  fetch_stock_news w ticker hours_back page page_size tr
    = (Raise (RequestException f),
       (tr ++ [Now (reading w tr);
               HttpGet (sent_request w ticker from (reading w tr)
                          page page_size)])%list).
Proof. intros H. step_get H. reflexivity. Qed.

Lemma fetch_http_error (r : Response) :
  upstream w (List.length (calls tr))
    (sent_request w ticker from (reading w tr) page page_size) = inl r ->
  is_error_status (status_code r) = true ->
  fetch_stock_news w ticker hours_back page page_size tr
    = (Raise (HTTPError r),
       (tr ++ [Now (reading w tr);
               HttpGet (sent_request w ticker from (reading w tr)
                          page page_size)])%list).
Proof.
  intros H Hs. step_get H. unfold raise_for_status. rewrite Hs. reflexivity.
Qed.

Lemma fetch_bad_json (r : Response) :
  upstream w (List.length (calls tr))
    (sent_request w ticker from (reading w tr) page page_size) = inl r ->
  is_error_status (status_code r) = false ->
  loads w (text r) = None ->
  fetch_stock_news w ticker hours_back page page_size tr
    = (Raise JSONDecodeError,
       (tr ++ [Now (reading w tr);
               HttpGet (sent_request w ticker from (reading w tr)
                          page page_size)])%list).
Proof.
  intros H Hs Hl. step_get H. unfold raise_for_status, json.
  rewrite Hs, Hl. reflexivity.
Qed.

Lemma fetch_decoded (r : Response) (body : value) :
  upstream w (List.length (calls tr))
    (sent_request w ticker from (reading w tr) page page_size) = inl r ->
  is_error_status (status_code r) = false ->
  loads w (text r) = Some body ->
  fetch_stock_news w ticker hours_back page page_size tr
    = (getitem body "articles",
       (tr ++ [Now (reading w tr);
               HttpGet (sent_request w ticker from (reading w tr)
                          page page_size);
               Print body])%list).
Proof.
  intros H Hs Hl. step_get H. unfold raise_for_status, json, print.
  rewrite Hs, Hl. rewrite <- app_assoc. reflexivity.
Qed.

End Sent.

Lemma fetch_run_complete :
  exists res new,
    fetch_stock_news w ticker hours_back page page_size tr
      = (res, (tr ++ new)%list)
    /\ fetch_run w ticker hours_back page page_size tr res new.
Proof.
  destruct (window (reading w tr) hours_back) as [from|e] eqn:Hwin.
  - destruct (upstream w (List.length (calls tr))
                (sent_request w ticker from (reading w tr) page page_size))
      as [r|f] eqn:Hans.
    + destruct (is_error_status (status_code r)) eqn:Hs.
      * eexists _, _. split.
        -- eapply fetch_http_error; eassumption.
        -- eapply run_failed; eassumption.
      * destruct (loads w (text r)) as [body|] eqn:Hl.
        -- eexists _, _. split.
           ++ eapply fetch_decoded; eassumption.
           ++ eapply run_decoded; eassumption.
        -- eexists _, _. split.
           ++ eapply fetch_bad_json; eassumption.
           ++ eapply run_failed; eassumption.
    + eexists _, _. split.
      * eapply fetch_transport_failure; eassumption.
      * eapply run_failed; eassumption.
  - eexists _, _. split.
    + eapply fetch_overflow; eassumption.
    + eapply run_overflow; eassumption.
Qed.

(** Once the window is computed, the call is made, and nothing after it is a
    call or a clock read. *)
Lemma fetch_sends (from : datetime) :
  window (reading w tr) hours_back = Return from ->
  exists res rest,
    fetch_stock_news w ticker hours_back page page_size tr
      = (res,
         (tr ++ Now (reading w tr)
             :: HttpGet (sent_request w ticker from (reading w tr)
                           page page_size)
             :: rest)%list)
    /\ calls rest = [] /\ clock_reads rest = 0%nat.
Proof.
  intros Hwin.
  destruct fetch_run_complete as (res & new & Heq & Hrun).
  destruct Hrun as [e He | from' e Hw | from' r body Hw Hans Hl];
    try congruence;
    assert (from' = from) as -> by congruence;
    rewrite Heq; eexists _, _; (split; [reflexivity|split; reflexivity]).
Qed.

End Paths.




(** ** Properties of [fetch_stock_news] *)


















(** C7.  The captured run: for ["TSLA"], 24 hours back, page 1 of size 5,
    when the upstream answers 200 with the captured body, the routine
    returns five records, and the first one is titled "Tesla rival Xiaomi
    shows off its new SUV in Beijing", comes from "Quartz India" and was
    published at "2025-05-29T17:31:15Z". *)
Theorem fetch_captured_run :
  forall (w : World) (tr : trace) (from : datetime) (r : Response),
    window (reading w tr) 24 = Return from ->
    upstream w (List.length (calls tr))
      (sent_request w "TSLA" from (reading w tr) 1 5) = inl r ->
    status_code r = 200 ->
    loads w (text r) = Some sample_body ->
    exists (first source : value) (others : list value),
      fst (fetch_stock_news w "TSLA" 24 1 5 tr)
        = Return (VList (first :: others))
      /\ List.length (first :: others) = 5%nat
      /\ getitem first "title"
           = Return (VStr "Tesla rival Xiaomi shows off its new SUV in Beijing")
      /\ getitem first "source" = Return source
      /\ getitem source "name" = Return (VStr "Quartz India")
      /\ getitem first "publishedAt" = Return (VStr "2025-05-29T17:31:15Z").
Proof.
  intros w tr from r Hwin Hans Hs Hl.
  exists sample_article_1,
         (VDict [("id", VNone); ("name", VStr "Quartz India")]),
         [sample_article_2; sample_article_3; sample_article_4;
          sample_article_5].
  split; [|repeat split].
  rewrite (fetch_decoded w "TSLA" 24 1 5 tr from Hwin r sample_body Hans).
  - reflexivity.
  - rewrite Hs. reflexivity.
  - exact Hl.
Qed.

Lemma fetch_captured_run_witness :
  exists (first source : value) (others : list value),
    fst (fetch_stock_news captured_world "TSLA" 24 1 5 [])
      = Return (VList (first :: others))
    /\ List.length (first :: others) = 5%nat
    /\ getitem first "title"
         = Return (VStr "Tesla rival Xiaomi shows off its new SUV in Beijing")
    /\ getitem first "source" = Return source
    /\ getitem source "name" = Return (VStr "Quartz India")
    /\ getitem first "publishedAt" = Return (VStr "2025-05-29T17:31:15Z").
Proof.
  apply (fetch_captured_run captured_world [] day_before captured_response);
    reflexivity.
Defined.






(** C10.  A call that gives only the ticker runs the routine with
    [hours_back = 1], [page = 1] and [page_size = 50]: the call it makes asks
    for page 1 of size 50 over the hour that ends at the clock reading. *)
Theorem fetch_default_arguments :
  forall (w : World) (ticker : string) (tr : trace),
    fetch_stock_news_call w ticker None None None tr
      = fetch_stock_news w ticker 1 1 50 tr
    /\ forall from,
         window (reading w tr) 1 = Return from ->
         from = reading w tr - US_PER_HOUR
         /\ exists req rest,
              snd (fetch_stock_news_call w ticker None None None tr)
                = (tr ++ Now (reading w tr) :: HttpGet req :: rest)%list
              /\ calls rest = []
              /\ lookup "from" (params req) = Some (VStr (isoformat from))
              /\ lookup "to" (params req)
                   = Some (VStr (isoformat (reading w tr)))
              /\ lookup "page" (params req) = Some (VInt 1)
              /\ lookup "pageSize" (params req) = Some (VInt 50).
Proof.
  intros w ticker tr. split; [reflexivity|].
  intros from Hwin. split.
  - apply window_value in Hwin. lia.
  - destruct (fetch_sends w ticker 1 1 50 tr from Hwin)
      as (res & rest & Heq & Hc & _).
    exists (sent_request w ticker from (reading w tr) 1 50), rest.
    unfold fetch_stock_news_call. rewrite Heq. cbn [snd].
    repeat split; assumption.
Qed.

Lemma fetch_default_arguments_witness :
  exists req rest,
    snd (fetch_stock_news_call captured_world "TSLA" None None None [])
      = Now captured_at :: HttpGet req :: rest
    /\ lookup "from" (params req) = Some (VStr "2025-05-29T20:00:00")
    /\ lookup "to" (params req) = Some (VStr "2025-05-29T21:00:00")
    /\ lookup "page" (params req) = Some (VInt 1)
    /\ lookup "pageSize" (params req) = Some (VInt 50).
Proof.
  destruct (fetch_default_arguments captured_world "TSLA" []) as (_ & H).
  destruct (H (mk_datetime 2025 5 29 20 0 0 0) eq_refl)
    as (_ & req & rest & Hs & _ & Hf & Ht & Hp & Hz).
  exists req, rest. repeat split; assumption.
Defined.

(** ** Cell 4 on the stored run *)

Example cell_4_stored_output :
  stream no_text (tl (stdout (snd (cell_4 no_text captured_world []))))
    = stored_output.
Proof. vm_compute. reflexivity. Qed.

Example cell_4_partial_output :
  cell_4 no_text unlinked_world []
    = (Raise (KeyError "url"),
       (snd (fetch_stock_news unlinked_world "TSLA" 24 1 5 [])
          ++ [ summary_line 3 ]
          ++ article_lines no_text sample_article_1
          ++ [ Print (VStr "Title: None");
               Print (VStr "Source: Biztoc.com");
               Print (VStr "Published At: 2025-05-29T19:00:05Z") ])%list).
Proof. vm_compute. reflexivity. Qed.

(** ** Further properties of [fetch_stock_news] *)







(** X3.  The lookback is not checked for sign: with an integer
    [hours_back <= 0] whose window is computed, the routine still makes its
    call, for a window whose start is the clock reading itself or lies
    [- hours_back] hours after it. *)
Theorem fetch_accepts_non_positive_lookback :
  forall (w : World) (ticker : string) (hours_back page page_size : Z)
         (tr : trace) (from : datetime),
    hours_back <= 0 ->
    window (reading w tr) hours_back = Return from ->
    reading w tr <= from
    /\ from - reading w tr = - hours_back * US_PER_HOUR
    /\ calls (snd (fetch_stock_news w ticker hours_back page page_size tr))
         = (calls tr
              ++ [HttpGet (sent_request w ticker from (reading w tr)
                             page page_size)])%list.
Proof.
  intros w ticker h p ps tr from Hh Hwin.
  assert (HH : 0 < US_PER_HOUR) by reflexivity.
  pose proof (window_value _ _ _ Hwin) as Hv.
  split; [nia|]. split; [lia|].
  destruct (fetch_sends w ticker h p ps tr from Hwin)
    as (res & rest & Heq & Hc & _).
  rewrite Heq. cbn [snd]. rewrite calls_app.
  unfold calls in *. cbn [filter is_get]. rewrite Hc. reflexivity.
Qed.

Lemma fetch_accepts_non_positive_lookback_witness :
  exists req,
    calls (snd (fetch_stock_news captured_world "TSLA" (-24) 1 5 []))
      = [HttpGet req]
    /\ lookup "from" (params req) = Some (VStr "2025-05-30T21:00:00")
    /\ lookup "to" (params req) = Some (VStr "2025-05-29T21:00:00").
Proof.
  destruct (fetch_accepts_non_positive_lookback captured_world "TSLA"
              (-24) 1 5 [] (mk_datetime 2025 5 30 21 0 0 0)
              ltac:(lia) eq_refl)
    as (_ & _ & Hc).
  eexists. split; [exact Hc|]. split; reflexivity.
Defined.




Lemma getitem_raises (v : value) (k : string) (e : exception) :
  getitem v k = Raise e ->
  (e = KeyError k /\ exists entries, v = VDict entries /\ lookup k entries = None)
  \/ (e = TypeError /\ forall entries, v <> VDict entries).
Proof.
  destruct v; cbn; intros H;
    try (right; split; [congruence|intros; discriminate]).
  destruct (lookup k entries) eqn:Hl; [discriminate|].
  left. split; [congruence|eauto].
Qed.





(** ** Properties of cell 4 *)

Section Loop.

Variable other : value -> string.

Ltac run_article :=
  unfold print_article, article_lines, article_fields, bind, lift, print.

Ltac done_partial :=
  split; [reflexivity|split; [cbn; lia|reflexivity]].

(** What the loop body does to a record that has its four fields. *)
Lemma print_article_complete (article : value) (tr : trace) :
  has_fields article ->
  print_article other article tr
    = (Return tt, (tr ++ article_lines other article)%list).
Proof.
  intros (fields & H). revert H. run_article.
  destruct (getitem article "title") as [title|]; [|discriminate].
  destruct (getitem article "source") as [source|]; [|discriminate].
  destruct (getitem source "name") as [name|]; [|discriminate].
  destruct (getitem article "publishedAt") as [published|]; [|discriminate].
  destruct (getitem article "url") as [link|]; [|discriminate].
  intros _. rewrite <- !app_assoc. reflexivity.
Qed.

(** What it does to a record that lacks one: it raises the error of the
    first lookup that fails, after printing the lines that come before it. *)
Lemma print_article_partial (article : value) (e : exception) (tr : trace) :
  article_fields article = Raise e ->
  exists partial,
    print_article other article tr = (Raise e, (tr ++ partial)%list)
    /\ (List.length partial <= 3)%nat
    /\ stdout partial = partial.
Proof.
  run_article.
  destruct (getitem article "title") as [title|e1].
  2:{ intros H. injection H as ->. exists []. rewrite app_nil_r. done_partial. }
  destruct (getitem article "source") as [source|e1].
  2:{ intros H. injection H as ->. eexists [_]. done_partial. }
  destruct (getitem source "name") as [name|e1].
  2:{ intros H. injection H as ->. eexists [_]. done_partial. }
  destruct (getitem article "publishedAt") as [published|e1].
  2:{ intros H. injection H as ->. eexists [_; _].
      rewrite <- !app_assoc. done_partial. }
  destruct (getitem article "url") as [link|e1]; [discriminate|].
  intros H. injection H as ->. eexists [_; _; _].
  rewrite <- !app_assoc. done_partial.
Qed.

Lemma print_article_only_prints (article : value) (tr : trace) :
  exists res out,
    print_article other article tr = (res, (tr ++ out)%list)
    /\ stdout out = out.
Proof.
  destruct (article_fields article) as [fields|e] eqn:H.
  - eexists _, _. split.
    + apply print_article_complete. exists fields. exact H.
    + unfold article_lines. rewrite H.
      destruct fields as [[[t n] p] u]. reflexivity.
  - destruct (print_article_partial article e tr H) as (partial & Hp & _ & Hs).
    eauto.
Qed.

Lemma for_each_complete (items : list value) (tr : trace) :
  Forall has_fields items ->
  for_each items (print_article other) tr
    = (Return tt, (tr ++ flat_map (article_lines other) items)%list).
Proof.
  intros H. revert tr.
  induction H as [|article rest Ha _ IH]; intros tr; cbn [for_each flat_map].
  - unfold ret. rewrite app_nil_r. reflexivity.
  - unfold bind. rewrite (print_article_complete article tr Ha).
    rewrite IH, app_assoc. reflexivity.
Qed.

Lemma for_each_stops (good rest : list value) (bad : value) (e : exception)
    (tr : trace) :
  Forall has_fields good ->
  article_fields bad = Raise e ->
  exists partial,
    for_each (good ++ bad :: rest)%list (print_article other) tr
      = (Raise e,
         (tr ++ flat_map (article_lines other) good ++ partial)%list)
    /\ (List.length partial <= 3)%nat
    /\ stdout partial = partial.
Proof.
  intros Hg Hb. revert tr.
  induction Hg as [|article good' Ha _ IH]; intros tr.
  - cbn [app for_each flat_map]. unfold bind.
    destruct (print_article_partial bad e tr Hb) as (partial & -> & Hl & Hs).
    exists partial. auto.
  - cbn [app for_each flat_map]. unfold bind.
    rewrite (print_article_complete article tr Ha).
    destruct (IH (tr ++ article_lines other article)%list)
      as (partial & -> & Hl & Hs).
    exists partial. rewrite <- !app_assoc. auto.
Qed.

Lemma for_each_only_prints (items : list value) (tr : trace) :
  exists res out,
    for_each items (print_article other) tr = (res, (tr ++ out)%list)
    /\ stdout out = out.
Proof.
  revert tr. induction items as [|article rest IH]; intros tr.
  - exists (Return tt), []. cbn. unfold ret. rewrite app_nil_r. auto.
  - cbn [for_each]. unfold bind.
    destruct (print_article_only_prints article tr) as (res & out & -> & Ho).
    destruct res as [[]|e].
    + destruct (IH (tr ++ out)%list) as (res' & out' & -> & Ho').
      exists res', (out ++ out')%list. rewrite app_assoc. split; [reflexivity|].
      rewrite stdout_app, Ho, Ho'. reflexivity.
    + eauto.
Qed.

End Loop.

Lemma prints_no_call (out : trace) : stdout out = out -> calls out = [].
Proof.
  induction out as [|e out IH]; [reflexivity|].
  unfold stdout, calls in *. destruct e; cbn.
  - intros H. exfalso.
    assert (Hl : (List.length (filter is_print out) <= List.length out)%nat)
      by apply filter_length_le.
    rewrite H in Hl. cbn in Hl. lia.
  - intros H. exfalso.
    assert (Hl : (List.length (filter is_print out) <= List.length out)%nat)
      by apply filter_length_le.
    rewrite H in Hl. cbn in Hl. lia.
  - intros H. injection H as H. auto.
Qed.

Lemma prints_no_clock_read (out : trace) :
  stdout out = out -> clock_reads out = 0%nat.
Proof.
  induction out as [|e out IH]; [reflexivity|].
  unfold stdout, clock_reads in *. destruct e; cbn.
  - intros H. exfalso.
    assert (Hl : (List.length (filter is_print out) <= List.length out)%nat)
      by apply filter_length_le.
    rewrite H in Hl. cbn in Hl. lia.
  - intros H. exfalso.
    assert (Hl : (List.length (filter is_print out) <= List.length out)%nat)
      by apply filter_length_le.
    rewrite H in Hl. cbn in Hl. lia.
  - intros H. injection H as H. auto.
Qed.

Lemma cell_4_after_fetch (other : value -> string) (w : World)
    (tr tr1 : trace) (v : value) (count : Z) (items : list value) :
  fetch_stock_news w "TSLA" 24 1 5 tr = (Return v, tr1) ->
  len v = Return count ->
  iter v = Return items ->
  cell_4 other w tr
    = for_each items (print_article other) (tr1 ++ [summary_line count])%list.
Proof.
  intros Hf Hl Hi. unfold cell_4, bind. rewrite Hf.
  unfold lift, print. rewrite Hl, Hi. reflexivity.
Qed.

(** X7.  When the routine returns a list whose records all have a title, a
    source with a name, a publication date and a url, the cell prints the
    count line and then, record by record and in the order of the list, the
    four lines of each record; it ends normally and prints nothing else. *)
Theorem cell_4_prints_every_article :
  forall (other : value -> string) (w : World) (tr tr1 : trace)
         (items : list value),
    fetch_stock_news w "TSLA" 24 1 5 tr = (Return (VList items), tr1) ->
    Forall has_fields items ->
    cell_4 other w tr
      = (Return tt,
         (tr1 ++ summary_line (Z.of_nat (List.length items))
              :: flat_map (article_lines other) items)%list).
Proof.
  intros other w tr tr1 items Hf Hall.
  rewrite (cell_4_after_fetch other w tr tr1 _ _ items Hf eq_refl eq_refl).
  rewrite (for_each_complete other items _ Hall).
  rewrite <- app_assoc. reflexivity.
Qed.

Lemma cell_4_prints_every_article_witness :
  List.length (stdout (snd (cell_4 no_text captured_world []))) = 22%nat
  /\ fst (cell_4 no_text captured_world []) = Return tt.
Proof.
  rewrite (cell_4_prints_every_article no_text captured_world []
             (snd (fetch_stock_news captured_world "TSLA" 24 1 5 []))
             [sample_article_1; sample_article_2; sample_article_3;
              sample_article_4; sample_article_5]).
  - split; reflexivity.
  - reflexivity.
  - repeat constructor; eexists; reflexivity.
Defined.

(** X8.  The loop stops at the first record that lacks one of the fields:
    the cell ends on the error of the failed lookup, having printed the
    count of all records, the lines of every record before that one and at
    most three lines of that one; the records after it are not printed. *)
Theorem cell_4_stops_at_incomplete_article :
  forall (other : value -> string) (w : World) (tr tr1 : trace)
         (good rest : list value) (bad : value) (e : exception),
    fetch_stock_news w "TSLA" 24 1 5 tr
      = (Return (VList (good ++ bad :: rest)%list), tr1) ->
    Forall has_fields good ->
    article_fields bad = Raise e ->
    exists partial,
      cell_4 other w tr
        = (Raise e,
           (tr1 ++ summary_line
                     (Z.of_nat (List.length (good ++ bad :: rest)%list))
                :: flat_map (article_lines other) good ++ partial)%list)
      /\ (List.length partial <= 3)%nat
      /\ stdout partial = partial.
Proof.
  intros other w tr tr1 good rest bad e Hf Hg Hb.
  rewrite (cell_4_after_fetch other w tr tr1 _ _ _ Hf eq_refl eq_refl).
  set (count := Z.of_nat (List.length (good ++ bad :: rest)%list)).
  destruct (for_each_stops other good rest bad e
              (tr1 ++ [summary_line count])%list Hg Hb)
    as (partial & -> & Hl & Hs).
  exists partial. rewrite <- app_assoc. auto.
Qed.

Lemma cell_4_stops_at_incomplete_article_witness :
  exists partial,
    cell_4 no_text unlinked_world []
      = (Raise (KeyError "url"),
         (snd (fetch_stock_news unlinked_world "TSLA" 24 1 5 [])
            ++ summary_line 3
            :: article_lines no_text sample_article_1 ++ partial)%list)
    /\ (List.length partial <= 3)%nat.
Proof.
  destruct (cell_4_stops_at_incomplete_article no_text unlinked_world []
              (snd (fetch_stock_news unlinked_world "TSLA" 24 1 5 []))
              [sample_article_1] [sample_article_3] unlinked_article
              (KeyError "url") eq_refl
              ltac:(repeat constructor; eexists; reflexivity) eq_refl)
    as (partial & Hc & Hl & _).
  exists partial. split; assumption.
Defined.

(** The cell handles no error of the routine: when the routine raises, the
    cell ends on the same exception and prints nothing of its own. *)
Lemma cell_4_propagates_fetch_error (other : value -> string) (w : World)
    (tr tr1 : trace) (e : exception) :
  fetch_stock_news w "TSLA" 24 1 5 tr = (Raise e, tr1) ->
  cell_4 other w tr = (Raise e, tr1).
Proof.
  intros Hf. unfold cell_4, bind. rewrite Hf. reflexivity.
Qed.

(** X9.  When the ["articles"] entry of the body is not a collection
    (null, a boolean or a number), the routine returns it all the same and
    the cell ends on [TypeError] at [len], before its first line. *)
Theorem cell_4_needs_a_collection :
  forall (other : value -> string) (w : World) (tr tr1 : trace) (v : value),
    fetch_stock_news w "TSLA" 24 1 5 tr = (Return v, tr1) ->
    (forall items, v <> VList items) ->
    (forall entries, v <> VDict entries) ->
    (forall s, v <> VStr s) ->
    cell_4 other w tr = (Raise TypeError, tr1).
Proof.
  intros other w tr tr1 v Hf Hl Hd Hs. unfold cell_4, bind. rewrite Hf.
  destruct v; try reflexivity; exfalso.
  - eapply Hs. reflexivity.
  - eapply Hl. reflexivity.
  - eapply Hd. reflexivity.
Qed.

Lemma cell_4_needs_a_collection_witness :
  fst (fetch_stock_news null_articles_world "TSLA" 24 1 5 []) = Return VNone
  /\ cell_4 no_text null_articles_world []
     = (Raise TypeError,
        snd (fetch_stock_news null_articles_world "TSLA" 24 1 5 [])).
Proof.
  split; [reflexivity|].
  apply (cell_4_needs_a_collection no_text null_articles_world [] _ VNone);
    [reflexivity|discriminate..].
Defined.

(** X10.  Whatever the upstream answers and however many records come
    back, all that the cell adds to the effects of the routine is prints:
    the cell reads the clock once and invokes [requests.get] at most once,
    both inside the routine. *)
Theorem cell_4_one_call_at_most :
  forall (other : value -> string) (w : World) (tr : trace),
  exists added,
    snd (cell_4 other w tr)
      = (snd (fetch_stock_news w "TSLA" 24 1 5 tr) ++ added)%list
    /\ stdout added = added
    /\ clock_reads (snd (cell_4 other w tr)) = S (clock_reads tr)
    /\ (List.length (calls (snd (cell_4 other w tr)))
        <= S (List.length (calls tr)))%nat.
Proof.
  intros other w tr.
  destruct (fetch_run_complete w "TSLA" 24 1 5 tr) as (res & new & Heq & Hrun).
  assert (Hnew : clock_reads new = 1%nat /\ (List.length (calls new) <= 1)%nat).
  { destruct Hrun; cbn; auto. }
  destruct Hnew as (Hn & Hc).
  assert (Hadded : exists added,
             snd (cell_4 other w tr) = ((tr ++ new) ++ added)%list
             /\ stdout added = added).
  { destruct res as [v|e].
    - destruct (len v) as [count|e] eqn:Hl.
      + assert (Hi : exists items, iter v = Return items).
        { destruct v; try discriminate; cbn; eauto. }
        destruct Hi as (items & Hi).
        rewrite (cell_4_after_fetch other w tr _ v count items Heq Hl Hi).
        destruct (for_each_only_prints other items
                    ((tr ++ new) ++ [summary_line count])%list)
          as (res & out & -> & Ho).
        exists (summary_line count :: out). cbn [snd].
        split; [rewrite <- !app_assoc; reflexivity|].
        change (summary_line count :: out)
          with ([summary_line count] ++ out)%list.
        rewrite stdout_app, Ho. reflexivity.
      + exists []. unfold cell_4, bind. rewrite Heq. unfold lift. rewrite Hl.
        rewrite app_nil_r. auto.
    - exists [].
      rewrite (cell_4_propagates_fetch_error other w tr _ e Heq).
      rewrite app_nil_r. auto. }
  destruct Hadded as (added & Hsnd & Hout).
  exists added. rewrite Heq. cbn [snd]. rewrite Hsnd.
  split; [reflexivity|]. split; [exact Hout|].
  rewrite !clock_reads_app, !calls_app, !length_app.
  rewrite (prints_no_call added Hout), (prints_no_clock_read added Hout).
  cbn [List.length]. lia.
Qed.
